(** * ClassyVision tutorial "Creating a custom model": a shallow embedding

    The notebook [tutorials/classy_model.ipynb] defines the class [MyModel]
    (a global average pooling followed by a linear layer), builds it from a
    configuration dictionary through the model registry, and runs inference.

    Python objects are embedded as follows.
    - A configuration dictionary is a finite map from strings to Python
      values ([gmap string value]).
    - Code that may raise or that touches global state (the random number
      generator used to initialise parameters, the model registry) lives in
      the monad [M]; the state survives an exception, as in Python.
    - A tensor is a shape together with its elements in row-major order.
      Elements are taken from an arbitrary scalar type with the arithmetic
      the layers need ([Torch]); rationals are used for concrete runs.
    - Python integers are unbounded; a tensor size must fit 64 bits.
      Memory is unlimited. *)

From Stdlib Require Import ZArith Arith ArithRing Lia.
From Stdlib Require QArith.
From stdpp Require Import gmap strings list.

Local Open Scope Z_scope.
Local Open Scope nat_scope.

(** ** Python values, exceptions *)

Inductive value :=
| VNone
| VBool (b : bool)
| VInt (i : Z)
| VStr (s : string).

#[global] Instance value_eq_dec : EqDecision value.
Proof. solve_decision. Defined.

(** Errors raised by the tensor library. *)
Inductive torch_error :=
| NegativeDimension (d : Z)       (* "Trying to create tensor with negative dimension" *)
| EmptySpatial                    (* pooling to several positions over an empty plane *)
| BadRank (r : nat)               (* pooling to several positions expects a 3D or 4D input *)
| InvalidShapeDimension (d : Z)   (* reshape: a dimension below -1 *)
| OnlyOneInferred                 (* reshape: more than one -1 *)
| AmbiguousReshape                (* reshape: -1 cannot be inferred for 0 elements *)
| InvalidReshape (n : nat)        (* reshape: sizes do not match n elements *)
| ScalarInput                     (* linear applied to a 0-dimensional tensor *)
| ShapeMismatch (got expected : nat). (* linear: last dimension differs from in_features *)

Inductive exn :=
| KeyError (key : value)
| IndexError
| TypeError
| ValueError
| AssertionError
| NotImplementedError
| RuntimeError (e : torch_error).

(** The classes of the notebook: the framework's base class and the class
    the tutorial defines.  ([MyModel] is defined twice, in cells 2 and 6;
    the second definition repeats the first and adds [from_config].) *)
Inductive class := ClassyModel | MyModel.

#[global] Instance class_eq_dec : EqDecision class.
Proof. solve_decision. Defined.

(** ** The tensor library's primitives *)

(** Scalars with the arithmetic used by pooling and by the linear layer,
    and a random generator: [uniform_ fan_in] draws one initial parameter
    of a layer with [fan_in] inputs, [rand] one sample of [torch.rand].

    [faddmm rows outs r j b v u] is the entry the linear kernel computes at
    row [r], column [j] of an output of [rows] rows and [outs] columns, from
    the bias entry [b], the input row [v] and the weight row [u]: the sum of
    [b] and of the products of [v] and [u], rounded as the kernel does at
    that position of an output of that size. *)
Class Torch := {
  scalar : Type;
  fzero : scalar;
  fadd : scalar -> scalar -> scalar;
  fdiv_count : scalar -> nat -> scalar;
  faddmm : nat -> nat -> nat -> nat -> scalar -> list scalar -> list scalar -> scalar;
  Generator : Type;
  uniform_ : nat -> Generator -> scalar * Generator;
  rand : Generator -> scalar * Generator
}.

Section Notebook.
Context `{T : Torch}.

(** ** Global state and the monad of effects *)

Record world := {
  rng_state : Generator;
  MODEL_REGISTRY : gmap string class
}.

Definition M (A : Type) : Type := world -> (exn + A) * world.

Definition ret {A} (a : A) : M A := fun w => (inr a, w).
Definition raise {A} (e : exn) : M A := fun w => (inl e, w).
Definition lift {A} (r : exn + A) : M A := fun w => (r, w).
Definition bind {A B} (c : M A) (k : A -> M B) : M B :=
  fun w => match c w with
           | (inl e, w') => (inl e, w')
           | (inr a, w') => k a w'
           end.

Notation "x <- c ;; k" := (bind c (fun x => k))
  (at level 100, c at next level, right associativity).

(** [config[key]] *)
Definition getitem (config : gmap string value) (key : string) : M value :=
  match config !! key with
  | Some v => ret v
  | None => raise (KeyError (VStr key))
  end.

(** [assert b] *)
Definition assert_ (b : bool) : M unit :=
  if b then ret tt else raise AssertionError.

(** ** Tensors *)

Record tensor := { shape : list nat; data : list scalar }.

Definition numel (s : list nat) : nat := fold_right Nat.mul 1 s.

Definition tensor_wf (t : tensor) : Prop := length (data t) = numel (shape t).

Definition fsum (l : list scalar) : scalar := fold_right fadd fzero l.
Definition mean (l : list scalar) : scalar := fdiv_count (fsum l) (length l).

(** [t.size(dim)] *)
Definition size (t : tensor) (dim : nat) : exn + nat :=
  match shape t !! dim with
  | Some n => inr n
  | None => inl IndexError
  end.

(** Drawing [n] samples in sequence. *)
Fixpoint sample_n (f : Generator -> scalar * Generator) (n : nat) (g : Generator)
  : list scalar * Generator :=
  match n with
  | 0 => ([], g)
  | S n' => let '(x, g1) := f g in
            let '(xs, g2) := sample_n f n' g1 in
            (x :: xs, g2)
  end.

Definition with_rng {A} (f : Generator -> A * Generator) : M A :=
  fun w => let '(a, g) := f (rng_state w) in
           (inr a, {| rng_state := g; MODEL_REGISTRY := MODEL_REGISTRY w |}).

(** [torch.rand(shape)] *)
Definition torch_rand (s : list nat) : M tensor :=
  d <- with_rng (sample_n rand (numel s)) ;;
  ret {| shape := s; data := d |}.

(** A size given as a Python value: only a (non-boolean) integer that
    fits a signed 64-bit integer is accepted, and it must not be negative. *)
Definition as_dim (v : value) : exn + nat :=
  match v with
  | VInt i =>
    if (i <? - 2 ^ 63)%Z || (2 ^ 63 <=? i)%Z then inl TypeError
    else if (i <? 0)%Z then inl (RuntimeError (NegativeDimension i))
    else inr (Z.to_nat i)
  | _ => inl TypeError
  end.

(** [Tensor.reshape]: the new shape may contain one -1, which is inferred
    from the number of elements. *)
Definition infer_size (req : list Z) (n : nat) : exn + list nat :=
  match List.find (fun d => (d <? -1)%Z) req with
  | Some d => inl (RuntimeError (InvalidShapeDimension d))
  | None =>
    let inferred := length (List.filter (fun d => (d =? -1)%Z) req) in
    if 1 <? inferred then inl (RuntimeError OnlyOneInferred)
    else
      let newsize :=
        numel (List.map Z.to_nat (List.filter (fun d => negb (d =? -1)%Z) req)) in
      if (n =? newsize) || ((inferred =? 1) && (0 <? newsize) && (n mod newsize =? 0))
      then
        if inferred =? 1
        then if newsize =? 0 then inl (RuntimeError AmbiguousReshape)
             else inr (List.map (fun d => if (d =? -1)%Z then n / newsize
                                          else Z.to_nat d) req)
        else inr (List.map Z.to_nat req)
      else inl (RuntimeError (InvalidReshape n))
  end.

Definition reshape (t : tensor) (req : list Z) : exn + tensor :=
  match infer_size req (numel (shape t)) with
  | inl e => inl e
  | inr s => inr {| shape := s; data := data t |}
  end.

(** *** [nn.AdaptiveAvgPool2d] *)

Record AdaptiveAvgPool2d := { output_size : nat * nat }.

(** The pooling window of output position [i] along an axis of length
    [inp] pooled down to [out] positions. *)
Definition start_index (i out inp : nat) : nat := (i * inp) / out.
Definition end_index (i out inp : nat) : nat := ((i + 1) * inp + out - 1) / out.
Definition window (i out inp : nat) : list nat :=
  seq (start_index i out inp) (end_index i out inp - start_index i out inp).

(** Mean of the elements at rows [hs] and columns [ws] of the plane of
    width [W] that starts at offset [base]. *)
Definition window_mean (d : list scalar) (W base : nat) (hs ws : list nat) : scalar :=
  mean (flat_map (fun h => List.map (fun w => nth (base + h * W + w) d fzero) ws) hs).

Definition pool_planes (p : AdaptiveAvgPool2d) (d : list scalar)
    (planes H W : nat) : list scalar :=
  let '(OH, OW) := output_size p in
  flat_map (fun pl =>
    flat_map (fun i =>
      List.map (fun j =>
        window_mean d W (pl * (H * W)) (window i OH H) (window j OW W))
        (seq 0 OW))
      (seq 0 OH))
    (seq 0 planes).

(** The layer pools the last two axes of its input.  An input with fewer
    than three axes is refused with [ValueError].  Pooling to a single
    position, [output_size = (1, 1)], is the mean over the last two axes,
    kept as axes of length 1: it takes any number of leading axes and any
    plane, also one without pixels (whose mean is the division of the empty
    sum by 0).  Pooling to several positions takes a batch (N, C, H, W) or
    a single image (C, H, W) with planes that have pixels. *)
Definition AdaptiveAvgPool2d_forward (p : AdaptiveAvgPool2d) (x : tensor)
  : exn + tensor :=
  let '(OH, OW) := output_size p in
  match List.rev (shape x) with
  | W :: H :: c :: rest =>
    let lead := List.rev (c :: rest) in
    if (OH =? 1) && (OW =? 1) then
      inr {| shape := lead ++ [1; 1];
             data := List.map (fun pl => window_mean (data x) W (pl * (H * W))
                                                     (seq 0 H) (seq 0 W))
                              (seq 0 (numel lead)) |}
    else if 2 <? length lead then inl (RuntimeError (BadRank (length (shape x))))
    else if (H =? 0) || (W =? 0) then inl (RuntimeError EmptySpatial)
    else inr {| shape := lead ++ [OH; OW];
                data := pool_planes p (data x) (numel lead) H W |}
  | _ => inl ValueError
  end.

(** *** [nn.Linear] *)

Record Linear := {
  in_features : nat;
  out_features : nat;
  weight : tensor;     (* shape [out_features; in_features] *)
  bias : tensor        (* shape [out_features] *)
}.

(** [nn.Linear(in_features, out_features)]: allocates the two parameters
    and initialises them from the generator, the weight first. *)
Definition Linear__init__ (in_f : nat) (out_f : value) : M Linear :=
  o <- lift (as_dim out_f) ;;
  w <- with_rng (sample_n (uniform_ in_f) (o * in_f)) ;;
  b <- with_rng (sample_n (uniform_ in_f) o) ;;
  ret {| in_features := in_f; out_features := o;
         weight := {| shape := [o; in_f]; data := w |};
         bias := {| shape := [o]; data := b |} |}.

(** Row [r] of a matrix with rows of length [k], stored row-major. *)
Definition row (d : list scalar) (k r : nat) : list scalar :=
  List.map (fun c => nth (r * k + c) d fzero) (seq 0 k).

(** Application of the layer to the input vector [v], which is row [r] of
    an input of [rows] rows. *)
Definition project (l : Linear) (rows r : nat) (v : list scalar) : list scalar :=
  List.map (fun j => faddmm rows (out_features l) r j
                            (nth j (data (bias l)) fzero)
                            v (row (data (weight l)) (in_features l) j))
           (seq 0 (out_features l)).

(** [Linear.forward]: every vector along the last axis is projected. *)
Definition Linear_forward (l : Linear) (x : tensor) : exn + tensor :=
  match List.rev (shape x) with
  | [] => inl (RuntimeError ScalarInput)
  | last :: lead =>
    if last =? in_features l then
      inr {| shape := List.rev lead ++ [out_features l];
             data := flat_map (fun r => project l (numel lead) r (row (data x) last r))
                              (seq 0 (numel lead)) |}
    else inl (RuntimeError (ShapeMismatch last (in_features l)))
  end.

(** ** The class [MyModel] *)

Record instance := {
  class_of : class;
  training : bool;            (* set by [super().__init__()] *)
  avgpool : AdaptiveAvgPool2d;
  fc : Linear
}.

Definition MyModel__init__ (num_classes : value) : M instance :=
  let pool := {| output_size := (1, 1) |} in
  let num_channels := 3 in
  l <- Linear__init__ num_channels num_classes ;;
  ret {| class_of := MyModel; training := true; avgpool := pool; fc := l |}.

Definition MyModel_from_config (config : gmap string value) : M instance :=
  num_classes <- getitem config "num_classes" ;;
  MyModel__init__ num_classes.

Definition MyModel_forward (self : instance) (x : tensor) : M tensor :=
  out <- lift (AdaptiveAvgPool2d_forward (avgpool self) x) ;;
  n <- lift (size out 0) ;;
  out <- lift (reshape out [Z.of_nat n; (-1)%Z]) ;;
  out <- lift (Linear_forward (fc self) out) ;;
  ret out.

(** [my_model(x)]: calling a module runs its [forward]. *)
Definition Module__call__ (self : instance) (x : tensor) : M tensor :=
  MyModel_forward self x.

Definition issubclass (c d : class) : bool :=
  match c, d with
  | MyModel, _ => true
  | ClassyModel, ClassyModel => true
  | ClassyModel, MyModel => false
  end.

Definition isinstance (o : instance) (c : class) : bool :=
  issubclass (class_of o) c.

(** The architecture of a model: its layers and their shapes, without the
    values of the parameters. *)
Record architecture := {
  arch_class : class;
  arch_pool : nat * nat;
  arch_in : nat;
  arch_out : nat;
  arch_weight_shape : list nat;
  arch_bias_shape : list nat
}.

Definition architecture_of (m : instance) : architecture :=
  {| arch_class := class_of m;
     arch_pool := output_size (avgpool m);
     arch_in := in_features (fc m);
     arch_out := out_features (fc m);
     arch_weight_shape := shape (weight (fc m));
     arch_bias_shape := shape (bias (fc m)) |}.

(** What a construction ends with: the architecture of the model it
    returns, or the exception it raises. *)
Definition built_architecture (r : (exn + instance) * world) : exn + architecture :=
  match fst r with
  | inl e => inl e
  | inr m => inr (architecture_of m)
  end.

(** ** The registry and the task (framework code the notebook calls) *)

(** Modelled from the spec: [register_model] is defined in
    [classy_vision.models], which the notebook imports.  The registry is a
    name-to-constructor lookup table; registering binds the name to the
    class and hands the class back to the decorated definition. *)
Definition register_model (name : string) (cls : class) : M class :=
  fun w => (inr cls, {| rng_state := rng_state w;
                        MODEL_REGISTRY := <[name := cls]> (MODEL_REGISTRY w) |}).

(** Modelled from the spec: the construction logic of a registered class.
    The base class [ClassyModel] is not in the notebook; it has no
    construction logic of its own. *)
Definition class_from_config (cls : class) (config : gmap string value) : M instance :=
  match cls with
  | MyModel => MyModel_from_config config
  | ClassyModel => raise NotImplementedError
  end.

Definition registry_lookup (name : value) : M class :=
  fun w => match name with
           | VStr s => match MODEL_REGISTRY w !! s with
                       | Some cls => (inr cls, w)
                       | None => (inl (KeyError name), w)
                       end
           | _ => (inl (KeyError name), w)
           end.

(** Modelled from the spec: [build_model] is defined in
    [classy_vision.models].  The string field ["name"] of the configuration
    selects the registered class, whose construction logic consumes the
    mapping. *)
Definition build_model (config : gmap string value) : M instance :=
  name <- getitem config "name" ;;
  cls <- registry_lookup name ;;
  class_from_config cls config.

Record ClassificationTask := { base_model : option instance }.

Definition ClassificationTask__init__ : ClassificationTask :=
  {| base_model := None |}.

(** Modelled from the spec: [ClassificationTask.set_model] is defined in
    [classy_vision.tasks].  It stores the model in the task and returns the
    task, so that calls can be chained. *)
Definition set_model (task : ClassificationTask) (model : instance)
  : ClassificationTask :=
  {| base_model := Some model |}.

(** ** The cells of the notebook, in order *)

Definition model_config : gmap string value :=
  <["num_classes" := VInt 3]> (<["name" := VStr "my_model"]> ∅).

Definition tutorial : M (ClassificationTask * instance * tensor) :=
  (* cell 4 *)
  my_model <- MyModel__init__ (VInt 1000) ;;
  let my_task := set_model ClassificationTask__init__ my_model in
  (* cell 6 *)
  _ <- register_model "my_model" MyModel ;;
  (* cell 8 *)
  my_model <- build_model model_config ;;
  _ <- assert_ (isinstance my_model MyModel) ;;
  x <- torch_rand [1; 3; 200; 200] ;;
  y <- Module__call__ my_model x ;;
  ret (my_task, my_model, y).

(** ** What the description says [forward] computes *)

(** Element [(n, c, h, w)] of a batch of shape [N; C; H; W]. *)
Definition pixel (x : tensor) (C H W n c h w : nat) : scalar :=
  nth (((n * C + c) * H + h) * W + w) (data x) fzero.

(** Pooling to one value per channel: the mean of the channel's pixels. *)
Definition channel_mean (x : tensor) (C H W n c : nat) : scalar :=
  mean (flat_map (fun h => List.map (fun w => pixel x C H W n c h w) (seq 0 W))
                 (seq 0 H)).

(** The flattened pooled values of sample [n]. *)
Definition pooled_values (x : tensor) (C H W n : nat) : list scalar :=
  List.map (channel_mean x C H W n) (seq 0 C).

(** Pooling followed by the projection [fc], sample by sample. *)
Definition pool_then_fc (m : instance) (x : tensor) : tensor :=
  match shape x with
  | [N; C; H; W] =>
    {| shape := [N; out_features (fc m)];
       data := flat_map (fun n => project (fc m) N n (pooled_values x C H W n))
                        (seq 0 N) |}
  | _ => {| shape := []; data := [] |}
  end.

(** The state a [MyModel] keeps whatever the values of its parameters. *)
Definition MyModel_ok (m : instance) : Prop :=
  class_of m = MyModel /\
  output_size (avgpool m) = (1, 1) /\
  in_features (fc m) = 3.

End Notebook.

Notation "x <- c ;; k" := (bind c (fun x => k))
  (at level 100, c at next level, right associativity).

(** ** A concrete instance: rational scalars, a linear congruential generator *)

(** Rationals are exact: the kernel's entry is the same sum at every
    position, and the mean of no values, which is not a number for floats,
    is 0. *)

Definition lcg (g : N) : N := ((1103515245 * g + 12345) mod 2147483648)%N.

Definition unit_sample (g : N) : QArith_base.Q :=
  QArith_base.Qmake (Z.of_N (g mod 1000)%N) 1000.

Definition QTorch : Torch := {|
  scalar := QArith_base.Q;
  fzero := QArith_base.Qmake 0 1;
  fadd := QArith_base.Qplus;
  fdiv_count := fun q n => QArith_base.Qdiv q (QArith_base.inject_Z (Z.of_nat n));
  faddmm := fun _ _ _ _ b v u =>
    QArith_base.Qplus b
      (fold_right QArith_base.Qplus (QArith_base.Qmake 0 1)
                  (zip_with QArith_base.Qmult v u));
  Generator := N;
  uniform_ := fun fan_in g =>
    (QArith_base.Qdiv (QArith_base.Qminus (unit_sample g) (QArith_base.Qmake 1 2))
                      (QArith_base.inject_Z (Z.of_nat (S fan_in))),
     lcg g);
  rand := fun g => (unit_sample g, lcg g)
|}.

(** An initial state: seed 42, nothing registered yet. *)
Definition world0 : @world QTorch :=
  @Build_world QTorch 42%N ∅.

(** A model with three classes, as [MyModel(num_classes=3)] builds it. *)
Definition model3 : @instance QTorch :=
  match fst (MyModel__init__ (VInt 3) world0) with
  | inr m => m
  | inl _ =>
    @Build_instance QTorch MyModel true {| output_size := (1, 1) |}
      (@Build_Linear QTorch 3 0 (@Build_tensor QTorch [0; 3] [])
                     (@Build_tensor QTorch [0] []))
  end.

(** The same model switched to evaluation mode: same layers, same
    parameters. *)
Definition model3_eval : @instance QTorch :=
  @Build_instance QTorch MyModel false (avgpool model3) (fc model3).

(** One 2-channel image of a single pixel. *)
Definition batch_1x2x1x1 : @tensor QTorch :=
  @Build_tensor QTorch [1; 2; 1; 1]
    [QArith_base.Qmake 1 1; QArith_base.Qmake 2 1].

(** A batch of two 3-channel images of 2 x 2 pixels. *)
Definition batch_2x3x2x2 : @tensor QTorch :=
  @Build_tensor QTorch [2; 3; 2; 2]
    (List.map (fun i => QArith_base.inject_Z (Z.of_nat i)) (seq 0 24)).

(** An empty batch of 2-channel images. *)
Definition batch_0x2x1x1 : @tensor QTorch :=
  @Build_tensor QTorch [0; 2; 1; 1] [].

Definition config_negative : gmap string value :=
  <["num_classes" := VInt (-1)]> (<["name" := VStr "my_model"]> ∅).

Definition config_extra : gmap string value :=
  <["pretrained" := VBool true]> model_config.

(** A single 3-channel image of 2 x 2 pixels, without a batch axis. *)
Definition image_3x2x2 : @tensor QTorch :=
  @Build_tensor QTorch [3; 2; 2]
    (List.map (fun i => QArith_base.inject_Z (Z.of_nat i)) (seq 0 12)).

(** An empty batch of 3-channel images of 2 x 2 pixels. *)
Definition batch_0x3x2x2 : @tensor QTorch :=
  @Build_tensor QTorch [0; 3; 2; 2] [].

(** A 5-dimensional input: two items of one channel, each made of three
    planes of 2 x 2 pixels. *)
Definition input_2x1x3x2x2 : @tensor QTorch :=
  @Build_tensor QTorch [2; 1; 3; 2; 2]
    (List.map (fun i => QArith_base.inject_Z (Z.of_nat i)) (seq 0 24)).

(** * Properties *)

Section Properties.
Context `{T : Torch}.

Implicit Types (w : world) (x : tensor) (m : instance) (cfg : gmap string value).

(** ** Lists built by tabulation *)

Lemma nth_map_seq {A} (g : nat -> A) (n i : nat) (d : A) :
  i < n -> nth i (List.map g (seq 0 n)) d = g i.
Proof.
  intros Hi.
  rewrite (nth_indep _ d (g 0)) by (rewrite length_map, length_seq; exact Hi).
  rewrite (map_nth g (seq 0 n) 0 i), seq_nth by exact Hi.
  reflexivity.
Qed.

Lemma flat_map_ext_seq {A} (f g : nat -> list A) (n : nat) :
  (forall i, i < n -> f i = g i) ->
  flat_map f (seq 0 n) = flat_map g (seq 0 n).
Proof.
  intros Hfg. rewrite !flat_map_concat_map. f_equal.
  apply map_ext_in. intros i Hi. apply in_seq in Hi. apply Hfg. lia.
Qed.

Lemma flat_map_length_const {A B} (f : A -> list B) (l : list A) (k : nat) :
  (forall a, length (f a) = k) -> length (flat_map f l) = length l * k.
Proof.
  intros Hf. induction l as [|a l IH]; simpl; [reflexivity|].
  rewrite length_app, Hf, IH. reflexivity.
Qed.

Lemma sample_n_length f n g : length (fst (sample_n f n g)) = n.
Proof.
  revert g. induction n as [|n IH]; intros g; simpl; [reflexivity|].
  destruct (f g) as [x g1]. specialize (IH g1).
  destruct (sample_n f n g1) as [xs g2]. simpl in *. congruence.
Qed.

Lemma project_length (l : Linear) (rows r : nat) v :
  length (project l rows r v) = out_features l.
Proof. unfold project. rewrite length_map, length_seq. reflexivity. Qed.

(** ** Sizes given as Python values *)

Lemma as_dim_accepts (n : Z) :
  (0 <= n < 2 ^ 63)%Z -> as_dim (VInt n) = inr (Z.to_nat n).
Proof.
  intros Hn. unfold as_dim.
  destruct (Z.ltb_spec n (- 2 ^ 63)) as [?|_]; [lia|].
  destruct (Z.leb_spec (2 ^ 63) n) as [?|_]; [lia|].
  destruct (Z.ltb_spec n 0) as [?|_]; [lia|]. reflexivity.
Qed.

Lemma as_dim_accepted (v : value) (k : nat) :
  as_dim v = inr k ->
  exists n : Z, v = VInt n /\ (0 <= n < 2 ^ 63)%Z /\ k = Z.to_nat n.
Proof.
  destruct v as [| b | n | s]; simpl; try discriminate.
  destruct (Z.ltb_spec n (- 2 ^ 63)) as [?|Hlo]; [discriminate|].
  destruct (Z.leb_spec (2 ^ 63) n) as [?|Hhi]; [discriminate|]. simpl.
  destruct (Z.ltb_spec n 0) as [?|Hpos]; [discriminate|].
  intros [= <-]. exists n. repeat split; lia.
Qed.

Lemma as_dim_refused (v : value) (e : exn) :
  as_dim v = inl e ->
  e = TypeError \/
  exists n : Z, v = VInt n /\ (- 2 ^ 63 <= n < 0)%Z /\
                e = RuntimeError (NegativeDimension n).
Proof.
  destruct v as [| b | n | s]; simpl; try (intros [= <-]; left; reflexivity).
  destruct (Z.ltb_spec n (- 2 ^ 63)) as [?|Hlo];
    [intros [= <-]; left; reflexivity|].
  destruct (Z.leb_spec (2 ^ 63) n) as [?|Hhi];
    [intros [= <-]; left; reflexivity|]. simpl.
  destruct (Z.ltb_spec n 0) as [Hneg|?]; [|discriminate].
  intros [= <-]. right. exists n. repeat split; lia.
Qed.

(** ** Reshaping to rows *)

Lemma infer_size_rows (N k n : nat) :
  1 <= N -> n = N * k ->
  infer_size [Z.of_nat N; (-1)%Z] n = inr [N; k].
Proof.
  intros HN ->. unfold infer_size. simpl.
  destruct (Z.ltb_spec (Z.of_nat N) (-1)) as [Hlt|_]; [lia|].
  destruct (Z.eqb_spec (Z.of_nat N) (-1)) as [Heq|_]; [lia|]. simpl.
  rewrite Nat2Z.id, Nat.mul_1_r.
  assert (Hpos : (0 <? N) = true) by (apply Nat.ltb_lt; lia).
  assert (Hmod : ((N * k) mod N =? 0) = true).
  { apply Nat.eqb_eq. rewrite Nat.mul_comm. apply Nat.Div0.mod_mul. }
  rewrite Hpos, Hmod, orb_true_r.
  destruct (Nat.eqb_spec N 0) as [H0|_]; [lia|].
  rewrite (Nat.mul_comm N k), Nat.div_mul by lia. reflexivity.
Qed.

Lemma infer_size_empty (n : nat) :
  n = 0 -> infer_size [0%Z; (-1)%Z] n = inl (RuntimeError AmbiguousReshape).
Proof. intros ->. reflexivity. Qed.

(** ** Pooling to a single position *)

Lemma window_mean_channel x C H W n c :
  window_mean (data x) W ((n * C + c) * (H * W)) (seq 0 H) (seq 0 W) =
  channel_mean x C H W n c.
Proof.
  unfold window_mean, channel_mean, pixel. f_equal.
  apply flat_map_ext. intros h. apply map_ext. intros v.
  f_equal. ring.
Qed.

(** ** The layers on batches and on single images *)

Lemma pool_4d (p : AdaptiveAvgPool2d) x N C H W :
  output_size p = (1, 1) -> shape x = [N; C; H; W] ->
  AdaptiveAvgPool2d_forward p x =
  inr {| shape := [N; C; 1; 1];
         data := List.map (fun pl => window_mean (data x) W (pl * (H * W))
                                                 (seq 0 H) (seq 0 W))
                          (seq 0 (N * C)) |}.
Proof.
  intros Hp Hs. unfold AdaptiveAvgPool2d_forward. rewrite Hp, Hs. simpl.
  rewrite Nat.mul_1_r. reflexivity.
Qed.

Lemma pool_3d (p : AdaptiveAvgPool2d) x C H W :
  output_size p = (1, 1) -> shape x = [C; H; W] ->
  AdaptiveAvgPool2d_forward p x =
  inr {| shape := [C; 1; 1];
         data := List.map (fun pl => window_mean (data x) W (pl * (H * W))
                                                 (seq 0 H) (seq 0 W))
                          (seq 0 C) |}.
Proof.
  intros Hp Hs. unfold AdaptiveAvgPool2d_forward. rewrite Hp, Hs. simpl.
  rewrite Nat.mul_1_r. reflexivity.
Qed.

Lemma reshape_rows (t : tensor) (N k : nat) :
  1 <= N -> numel (shape t) = N * k ->
  reshape t [Z.of_nat N; (-1)%Z] = inr {| shape := [N; k]; data := data t |}.
Proof.
  intros HN Hn. unfold reshape.
  rewrite (infer_size_rows N k) by assumption. reflexivity.
Qed.

Lemma reshape_empty (t : tensor) :
  numel (shape t) = 0 ->
  reshape t [0%Z; (-1)%Z] = inl (RuntimeError AmbiguousReshape).
Proof.
  intros Hn. unfold reshape. rewrite infer_size_empty by assumption. reflexivity.
Qed.

Lemma linear_rows (l : Linear) (t : tensor) (N k : nat) :
  shape t = [N; k] ->
  Linear_forward l t =
  if k =? in_features l then
    inr {| shape := [N; out_features l];
           data := flat_map (fun r => project l N r (row (data t) k r)) (seq 0 N) |}
  else inl (RuntimeError (ShapeMismatch k (in_features l))).
Proof.
  intros Hs. unfold Linear_forward. rewrite Hs. simpl.
  rewrite Nat.mul_1_r. reflexivity.
Qed.

(** ** [forward] on a batch of images *)

Lemma forward_4d m x N C H W w :
  output_size (avgpool m) = (1, 1) ->
  shape x = [N; C; H; W] -> 1 <= N ->
  MyModel_forward m x w =
  (if C =? in_features (fc m) then
     inr {| shape := [N; out_features (fc m)];
            data := flat_map (fun n => project (fc m) N n (pooled_values x C H W n))
                             (seq 0 N) |}
   else inl (RuntimeError (ShapeMismatch C (in_features (fc m)))), w).
Proof.
  intros Hp Hs HN. unfold MyModel_forward, bind, lift, ret.
  rewrite (pool_4d _ x N C H W Hp Hs). simpl.
  rewrite (reshape_rows _ N C) by (simpl; lia).
  rewrite (linear_rows _ _ N C) by reflexivity. simpl.
  destruct (C =? in_features (fc m)); [|reflexivity].
  do 2 f_equal. f_equal.
  apply flat_map_ext_seq. intros r Hr. f_equal.
  unfold row, pooled_values. apply map_ext_in. intros c Hc.
  apply in_seq in Hc.
  rewrite nth_map_seq by nia.
  apply window_mean_channel.
Qed.

Lemma forward_4d_empty m x C H W w :
  output_size (avgpool m) = (1, 1) ->
  shape x = [0; C; H; W] ->
  MyModel_forward m x w = (inl (RuntimeError AmbiguousReshape), w).
Proof.
  intros Hp Hs. unfold MyModel_forward, bind, lift, ret.
  rewrite (pool_4d _ x 0 C H W Hp Hs). reflexivity.
Qed.

Lemma forward_3d m x C H W w :
  output_size (avgpool m) = (1, 1) -> in_features (fc m) = 3 ->
  shape x = [C; H; W] ->
  MyModel_forward m x w =
  (inl (RuntimeError (if C =? 0 then AmbiguousReshape else ShapeMismatch 1 3)), w).
Proof.
  intros Hp Hin Hs. unfold MyModel_forward, bind, lift, ret.
  rewrite (pool_3d _ x C H W Hp Hs). simpl.
  destruct (Nat.eqb_spec C 0) as [->|HC].
  - rewrite reshape_empty by reflexivity. reflexivity.
  - rewrite (reshape_rows _ C 1) by (simpl; lia).
    rewrite (linear_rows _ _ C 1) by reflexivity. rewrite Hin. reflexivity.
Qed.

Lemma forward_on_batch m x (N H W : nat) w :
  MyModel_ok m ->
  shape x = [N; 3; H; W] -> 1 <= N -> 1 <= H -> 1 <= W ->
  MyModel_forward m x w = (inr (pool_then_fc m x), w).
Proof.
  intros (Hc & Hp & Hin) Hs HN HH HW.
  rewrite (forward_4d m x N 3 H W w Hp Hs HN), Hin.
  unfold pool_then_fc. rewrite Hs. reflexivity.
Qed.

(** ** Construction *)

Lemma init_run (v : value) w :
  MyModel__init__ v w =
  match as_dim v with
  | inl e => (inl e, w)
  | inr o =>
    let wd := sample_n (uniform_ 3) (o * 3) (rng_state w) in
    let bd := sample_n (uniform_ 3) o (snd wd) in
    (inr {| class_of := MyModel; training := true;
            avgpool := {| output_size := (1, 1) |};
            fc := {| in_features := 3; out_features := o;
                     weight := {| shape := [o; 3]; data := fst wd |};
                     bias := {| shape := [o]; data := fst bd |} |} |},
     {| rng_state := snd bd; MODEL_REGISTRY := MODEL_REGISTRY w |})
  end.
Proof.
  unfold MyModel__init__, Linear__init__, bind, lift, with_rng, ret.
  destruct (as_dim v) as [e|o]; [reflexivity|]. cbv zeta.
  destruct (sample_n (uniform_ 3) (o * 3) (rng_state w)) as [wd g1]. cbn [rng_state snd fst].
  destruct (sample_n (uniform_ 3) o g1) as [bd g2]. reflexivity.
Qed.

Lemma init_success (v : value) w m w' :
  MyModel__init__ v w = (inr m, w') ->
  exists n, v = VInt n /\ (0 <= n < 2 ^ 63)%Z /\ MyModel_ok m /\
            out_features (fc m) = Z.to_nat n /\
            MODEL_REGISTRY w' = MODEL_REGISTRY w.
Proof.
  rewrite init_run. destruct (as_dim v) as [e|o] eqn:Hdim; [discriminate|].
  destruct (as_dim_accepted v o Hdim) as (n & -> & Hn & ->).
  intros [= <- <-]. exists n. repeat split; lia.
Qed.

Lemma init_total (n : Z) w :
  (0 <= n < 2 ^ 63)%Z -> exists m w', MyModel__init__ (VInt n) w = (inr m, w').
Proof.
  intros Hn. rewrite init_run, (as_dim_accepts n Hn). eauto.
Qed.

Lemma init_failure (v : value) w e w' :
  MyModel__init__ v w = (inl e, w') ->
  w' = w /\
  (e = TypeError \/
   exists n : Z, v = VInt n /\ (- 2 ^ 63 <= n < 0)%Z /\
                 e = RuntimeError (NegativeDimension n)).
Proof.
  rewrite init_run. destruct (as_dim v) as [e'|o] eqn:Hdim; [|discriminate].
  intros [= <- <-]. split; [reflexivity|]. exact (as_dim_refused v e' Hdim).
Qed.

Lemma init_architecture (v : value) w :
  built_architecture (MyModel__init__ v w) =
  match as_dim v with
  | inl e => inl e
  | inr o => inr {| arch_class := MyModel; arch_pool := (1, 1);
                    arch_in := 3; arch_out := o;
                    arch_weight_shape := [o; 3]; arch_bias_shape := [o] |}
  end.
Proof. rewrite init_run. destruct (as_dim v); reflexivity. Qed.

Lemma init_not_key_error (v : value) w k w' :
  MyModel__init__ v w <> (inl (KeyError k), w').
Proof.
  intros Hrun. destruct (init_failure v w _ w' Hrun) as (_ & [He|(n & _ & _ & He)]);
    discriminate He.
Qed.

Lemma from_config_run cfg w :
  MyModel_from_config cfg w =
  match cfg !! "num_classes" with
  | Some v => MyModel__init__ v w
  | None => (inl (KeyError (VStr "num_classes")), w)
  end.
Proof.
  unfold MyModel_from_config, bind, getitem.
  destruct (cfg !! "num_classes"); reflexivity.
Qed.

(** ** The registry *)

Lemma build_model_run cfg w :
  cfg !! "name" = Some (VStr "my_model") ->
  MODEL_REGISTRY w !! "my_model" = Some MyModel ->
  build_model cfg w = MyModel_from_config cfg w.
Proof.
  intros Hname Hreg. unfold build_model, bind, getitem, registry_lookup.
  rewrite Hname. unfold ret. rewrite Hreg. reflexivity.
Qed.

Lemma register_model_run (name : string) (cls : class) w :
  exists w', register_model name cls w = (inr cls, w') /\
             rng_state w' = rng_state w /\
             MODEL_REGISTRY w' !! name = Some cls.
Proof.
  eexists. split; [reflexivity|]. split; [reflexivity|]. simpl.
  apply lookup_insert_eq.
Qed.

Lemma torch_rand_run (s : list nat) w :
  exists x w', torch_rand s w = (inr x, w') /\ shape x = s /\ tensor_wf x /\
               MODEL_REGISTRY w' = MODEL_REGISTRY w.
Proof.
  unfold torch_rand, bind, with_rng, ret.
  pose proof (sample_n_length rand (numel s) (rng_state w)) as Hlen.
  destruct (sample_n rand (numel s) (rng_state w)) as [d g].
  eexists _, _. split; [reflexivity|]. split; [reflexivity|].
  split; [exact Hlen|reflexivity].
Qed.

(** ** [forward] has no effect *)

Lemma forward_pure m x w1 w2 :
  fst (MyModel_forward m x w1) = fst (MyModel_forward m x w2) /\
  snd (MyModel_forward m x w1) = w1.
Proof.
  unfold MyModel_forward, bind, lift, ret.
  destruct (AdaptiveAvgPool2d_forward (avgpool m) x) as [e|out]; [split; reflexivity|].
  destruct (size out 0) as [e|n]; [split; reflexivity|].
  destruct (reshape out [Z.of_nat n; (-1)%Z]) as [e|out']; [split; reflexivity|].
  destruct (Linear_forward (fc m) out') as [e|out'']; split; reflexivity.
Qed.

Lemma forward_layers_only m1 m2 x w :
  avgpool m1 = avgpool m2 -> fc m1 = fc m2 ->
  MyModel_forward m1 x w = MyModel_forward m2 x w.
Proof. intros Hp Hf. unfold MyModel_forward. rewrite Hp, Hf. reflexivity. Qed.

(** * The claims *)

(** C1: for every configuration mapping that contains the key
    "num_classes", [MyModel.from_config] behaves exactly as the constructor
    call [MyModel(num_classes=config["num_classes"])]: the same model and
    final state, or the same exception.  Nothing else is done. *)
Theorem from_config_is_constructor_call cfg (v : value) w :
  cfg !! "num_classes" = Some v ->
  MyModel_from_config cfg w = MyModel__init__ v w.
Proof. intros Hv. rewrite from_config_run, Hv. reflexivity. Qed.

(** C2: on every batch of shape N x 3 x H x W (N, H, W >= 1) [forward]
    returns, without any effect, the pooling of every channel to its mean
    followed by the projection [fc] of the flattened pooled values of each
    sample, and nothing else. *)
Theorem forward_is_pool_then_fc m x (N H W : nat) w :
  MyModel_ok m ->
  shape x = [N; 3; H; W] -> 1 <= N -> 1 <= H -> 1 <= W ->
  MyModel_forward m x w = (inr (pool_then_fc m x), w).
Proof. exact (forward_on_batch m x N H W w). Qed.

(** C3 (amended): once [MyModel] is registered under "my_model", for every
    configuration mapping whose "name" field is "my_model" and whose
    "num_classes" field holds a value the constructor accepts,
    [build_model] returns an instance of [MyModel], the one
    [MyModel.from_config] constructs. *)
Theorem build_model_selects_MyModel cfg (v : value) w w1 m w2 :
  register_model "my_model" MyModel w = (inr MyModel, w1) ->
  cfg !! "name" = Some (VStr "my_model") ->
  cfg !! "num_classes" = Some v ->
  MyModel__init__ v w1 = (inr m, w2) ->
  build_model cfg w1 = (inr m, w2) /\
  isinstance m MyModel = true /\
  MyModel_from_config cfg w1 = (inr m, w2).
Proof.
  intros Hreg Hname Hv Hinit.
  destruct (register_model_run "my_model" MyModel w) as (w1' & E & _ & Hlook).
  rewrite E in Hreg. injection Hreg as <-.
  assert (Hfrom : MyModel_from_config cfg w1' = (inr m, w2))
    by (rewrite from_config_run, Hv; exact Hinit).
  rewrite (build_model_run cfg w1' Hname Hlook).
  split; [exact Hfrom|]. split; [|exact Hfrom].
  destruct (init_success _ _ _ _ Hinit) as (_ & _ & _ & (Hc & _) & _).
  unfold isinstance. rewrite Hc. reflexivity.
Qed.

(** C4: two configuration mappings that agree on "num_classes" give
    models with the same architecture (same layers, same shapes), whatever
    their other keys and whatever the state of the random generator; from
    the same state they give the same outcome altogether. *)
Theorem from_config_reads_num_classes_only cfg1 cfg2 w1 w2 :
  cfg1 !! "num_classes" = cfg2 !! "num_classes" ->
  built_architecture (MyModel_from_config cfg1 w1) =
  built_architecture (MyModel_from_config cfg2 w2) /\
  MyModel_from_config cfg1 w1 = MyModel_from_config cfg2 w1.
Proof.
  intros Heq. rewrite !from_config_run, Heq.
  destruct (cfg2 !! "num_classes") as [v|]; [|split; reflexivity].
  rewrite !init_architecture. split; reflexivity.
Qed.

(** C5: [forward] is a function of the two layers' parameters and of the
    input batch: two models with the same [avgpool] and [fc] give the same
    output on the same batch in any two states, and an invocation leaves the
    state as it was, so that a second invocation returns the same output. *)
Theorem forward_deterministic m1 m2 x w1 w2 :
  avgpool m1 = avgpool m2 -> fc m1 = fc m2 ->
  fst (MyModel_forward m1 x w1) = fst (MyModel_forward m2 x w2) /\
  snd (MyModel_forward m1 x w1) = w1 /\
  (forall y w', Module__call__ m1 x w1 = (inr y, w') ->
                Module__call__ m2 x w' = (inr y, w')).
Proof.
  intros Hp Hf.
  rewrite (forward_layers_only m1 m2 x w1 Hp Hf).
  destruct (forward_pure m2 x w1 w2) as [Hfst Hsnd].
  split; [exact Hfst|]. split; [exact Hsnd|].
  unfold Module__call__. intros y w' Hrun.
  rewrite (forward_layers_only m1 m2 x w1 Hp Hf) in Hrun.
  rewrite Hrun in Hsnd. simpl in Hsnd. subst w'. exact Hrun.
Qed.

(** C6: every step of the notebook succeeds, from any state of the random
    generator and of the registry: the model with 1000 classes is built and
    stored in the task, the class is registered, [build_model] returns a
    model for which the [isinstance] assertion holds, and inference on
    a batch of shape (1, 3, 200, 200) returns one row of three scores. *)
Theorem tutorial_succeeds w :
  exists task m y w',
    tutorial w = (inr (task, m, y), w') /\
    is_Some (base_model task) /\
    isinstance m MyModel = true /\
    shape y = [1; 3] /\
    MODEL_REGISTRY w' !! "my_model" = Some MyModel.
Proof.
  destruct (init_total 1000 w ltac:(lia)) as (m1 & w1 & E1).
  destruct (register_model_run "my_model" MyModel w1) as (w2 & E2 & _ & Hreg).
  destruct (init_total 3 w2 ltac:(lia)) as (m2 & w3 & E3).
  destruct (init_success _ _ _ _ E3) as (n & Hn & _ & Hok & Hout & Hreg3).
  injection Hn as <-.
  destruct (torch_rand_run [1; 3; 200; 200] w3) as (x & w4 & E4 & Hs & _ & Hreg4).
  assert (Hbuild : build_model model_config w2 = (inr m2, w3)).
  { rewrite build_model_run by (reflexivity || exact Hreg).
    rewrite from_config_run. exact E3. }
  assert (Hinst : isinstance m2 MyModel = true).
  { unfold isinstance. destruct Hok as (-> & _). reflexivity. }
  pose proof (forward_on_batch m2 x 1 200 200 w4 Hok Hs) as Hfwd.
  exists (set_model ClassificationTask__init__ m1), m2, (pool_then_fc m2 x), w4.
  split.
  - unfold tutorial, bind. rewrite E1, E2, Hbuild, Hinst.
    cbv beta iota delta [assert_ ret]. rewrite E4.
    unfold Module__call__. rewrite Hfwd by lia. reflexivity.
  - split; [eexists; reflexivity|]. split; [exact Hinst|]. split.
    + unfold pool_then_fc. rewrite Hs. simpl. rewrite Hout. reflexivity.
    + rewrite Hreg4, Hreg3. exact Hreg.
Qed.

(** C7: the configuration mapping of the notebook has exactly the two
    string keys "name", bound to the string "my_model", and "num_classes",
    bound to an integer. *)
Theorem model_config_keys :
  dom model_config = ({["name"; "num_classes"]} : gset string) /\
  model_config !! "name" = Some (VStr "my_model") /\
  exists n : Z, model_config !! "num_classes" = Some (VInt n).
Proof.
  split; [|split].
  - unfold model_config. rewrite !dom_insert_L, dom_empty_L. set_solver.
  - reflexivity.
  - exists 3%Z. reflexivity.
Qed.

(** C8: a model constructed with [num_classes = n] maps every batch of
    shape (N, 3, H, W) with N, H, W >= 1 to a tensor of shape (N, n), with
    as many elements as the shape says. *)
Theorem forward_output_shape (n : Z) w0 m w0' x (N H W : nat) w :
  MyModel__init__ (VInt n) w0 = (inr m, w0') ->
  shape x = [N; 3; H; W] -> 1 <= N -> 1 <= H -> 1 <= W ->
  exists y, MyModel_forward m x w = (inr y, w) /\
            shape y = [N; Z.to_nat n] /\ tensor_wf y.
Proof.
  intros Hinit Hs HN HH HW.
  destruct (init_success _ _ _ _ Hinit) as (n' & Hv & _ & Hok & Hout & _).
  injection Hv as <-.
  exists (pool_then_fc m x). split.
  - apply (forward_on_batch m x N H W w Hok Hs HN HH HW).
  - unfold pool_then_fc, tensor_wf. rewrite Hs. simpl. rewrite Hout.
    split; [reflexivity|].
    rewrite (flat_map_length_const _ _ (out_features (fc m)))
      by (intros a; apply project_length).
    rewrite length_seq, Hout. lia.
Qed.

(** C9 (amended): the linear layer expects 3 input features whatever the
    configuration.  On a 4-dimensional batch (N, C, H, W) [forward] returns
    only when C = 3; when C <> 3 it raises, and when moreover the batch is
    not empty (N >= 1) the exception is the shape mismatch of [fc], which
    receives vectors of length C. *)
Theorem forward_needs_three_channels m x (N C H W : nat) w :
  MyModel_ok m -> shape x = [N; C; H; W] ->
  (forall y w', MyModel_forward m x w = (inr y, w') -> C = 3 /\ 1 <= N) /\
  (C <> 3 ->
   (exists e, MyModel_forward m x w = (inl e, w)) /\
   (1 <= N ->
    MyModel_forward m x w = (inl (RuntimeError (ShapeMismatch C 3)), w))).
Proof.
  intros (_ & Hp & Hin) Hs.
  destruct (Nat.eq_dec N 0) as [->|HN].
  - rewrite (forward_4d_empty m x C H W w Hp Hs).
    split; [discriminate|]. intros _. split; [eauto|lia].
  - rewrite (forward_4d m x N C H W w Hp Hs) by lia. rewrite Hin.
    destruct (Nat.eqb_spec C 3) as [->|HC].
    + split; [intros; lia | intros; contradiction].
    + split; [discriminate|]. intros _. split; [eauto|reflexivity].
Qed.

(** C10: [MyModel.from_config] raises [KeyError] exactly when the mapping
    has no key "num_classes"; it then leaves the state untouched (no
    parameter was drawn, no model built), and otherwise is the constructor
    call; the "name" field is not looked at: changing or removing it changes
    nothing. *)
Theorem from_config_key_error cfg w :
  ((exists k w', MyModel_from_config cfg w = (inl (KeyError k), w')) <->
   cfg !! "num_classes" = None) /\
  MyModel_from_config cfg w =
    match cfg !! "num_classes" with
    | None => (inl (KeyError (VStr "num_classes")), w)
    | Some v => MyModel__init__ v w
    end /\
  (forall v : value,
     MyModel_from_config (<["name" := v]> cfg) w = MyModel_from_config cfg w) /\
  MyModel_from_config (delete "name" cfg) w = MyModel_from_config cfg w.
Proof.
  split; [|split; [|split]].
  - rewrite from_config_run. split.
    + intros (k & w' & Hrun).
      destruct (cfg !! "num_classes") as [v|]; [|reflexivity].
      exfalso. exact (init_not_key_error v w k w' Hrun).
    + intros ->. eauto.
  - rewrite from_config_run. destruct (cfg !! "num_classes"); reflexivity.
  - intros v. rewrite !from_config_run, lookup_insert_ne by done. reflexivity.
  - rewrite !from_config_run, lookup_delete_ne by done. reflexivity.
Qed.

End Properties.

(** * Further properties of [MyModel] *)

Section MoreProperties.
Context `{T : Torch}.

Implicit Types (w : world) (x : tensor) (m : instance) (cfg : gmap string value).

(** ** The constructor *)

(** X1: [MyModel(num_classes=v)] returns a model only when [v] is an
    integer with 0 <= v < 2^63.  It raises [TypeError] when [v] is not an
    integer or is 2^63 or more, and the tensor library's error for a negative
    size when -2^63 <= v < 0.  Whenever it raises, the state is left as it
    was: no parameter has been drawn. *)
Theorem constructor_outcomes (v : value) w :
  (forall m w', MyModel__init__ v w = (inr m, w') ->
     exists n : Z, v = VInt n /\ (0 <= n < 2 ^ 63)%Z) /\
  (forall e w', MyModel__init__ v w = (inl e, w') -> w' = w) /\
  ((forall n : Z, v <> VInt n) -> MyModel__init__ v w = (inl TypeError, w)) /\
  (forall n : Z, v = VInt n -> (2 ^ 63 <= n)%Z ->
     MyModel__init__ v w = (inl TypeError, w)) /\
  (forall n : Z, v = VInt n -> (- 2 ^ 63 <= n < 0)%Z ->
     MyModel__init__ v w = (inl (RuntimeError (NegativeDimension n)), w)).
Proof.
  split; [|split; [|split; [|split]]].
  - intros m w' Hrun.
    destruct (init_success v w m w' Hrun) as (n & Hv & Hn & _). eauto.
  - intros e w' Hrun. exact (proj1 (init_failure v w e w' Hrun)).
  - intros Hv. rewrite init_run.
    destruct v as [| b | n | s]; try reflexivity.
    exfalso. exact (Hv n eq_refl).
  - intros n -> Hn. rewrite init_run. unfold as_dim.
    destruct (Z.ltb_spec n (- 2 ^ 63)) as [?|_]; [reflexivity|].
    destruct (Z.leb_spec (2 ^ 63) n) as [_|?]; [reflexivity|lia].
  - intros n -> Hn. rewrite init_run. unfold as_dim.
    destruct (Z.ltb_spec n (- 2 ^ 63)) as [?|_]; [lia|].
    destruct (Z.leb_spec (2 ^ 63) n) as [?|_]; [lia|]. simpl.
    destruct (Z.ltb_spec n 0) as [_|?]; [reflexivity|lia].
Qed.

(** X2: a model returned by the constructor for [num_classes = n] is a
    [MyModel] in training mode whose pooling reduces each plane to one
    position and whose linear layer has 3 inputs and [n] outputs, with a
    weight of shape (n, 3) holding 3n values and a bias of shape (n) holding
    n values; the registry is not touched. *)
Theorem constructor_invariants (v : value) w m w' :
  MyModel__init__ v w = (inr m, w') ->
  exists n : Z,
    v = VInt n /\ (0 <= n)%Z /\
    class_of m = MyModel /\ training m = true /\
    output_size (avgpool m) = (1, 1) /\
    in_features (fc m) = 3 /\ out_features (fc m) = Z.to_nat n /\
    shape (weight (fc m)) = [Z.to_nat n; 3] /\ tensor_wf (weight (fc m)) /\
    shape (bias (fc m)) = [Z.to_nat n] /\ tensor_wf (bias (fc m)) /\
    MODEL_REGISTRY w' = MODEL_REGISTRY w.
Proof.
  rewrite init_run. destruct (as_dim v) as [e|o] eqn:Hdim; [discriminate|].
  destruct (as_dim_accepted v o Hdim) as (n & -> & Hn & ->).
  intros [= <- <-]. exists n. unfold tensor_wf. simpl.
  rewrite !sample_n_length.
  repeat split; try reflexivity; lia.
Qed.

(** X3: [MyModel.from_config] returns a model only when the mapping binds
    "num_classes" to an integer [n] with 0 <= n < 2^63; the model then has
    3 inputs and [n] outputs.  Whenever it raises, the state is left as it
    was. *)
Theorem from_config_outcomes cfg w :
  (forall m w', MyModel_from_config cfg w = (inr m, w') ->
     exists n : Z, cfg !! "num_classes" = Some (VInt n) /\
                   (0 <= n < 2 ^ 63)%Z /\
                   in_features (fc m) = 3 /\ out_features (fc m) = Z.to_nat n) /\
  (forall e w', MyModel_from_config cfg w = (inl e, w') -> w' = w).
Proof.
  rewrite from_config_run. split.
  - intros m w' Hrun.
    destruct (cfg !! "num_classes") as [v|]; [|discriminate].
    destruct (init_success v w m w' Hrun)
      as (n & -> & Hn & (_ & _ & Hin) & Hout & _).
    exists n. repeat split; (assumption || lia).
  - intros e w' Hrun.
    destruct (cfg !! "num_classes") as [v|].
    + exact (proj1 (init_failure v w e w' Hrun)).
    + injection Hrun as _ <-. reflexivity.
Qed.

(** ** [forward] at the edges of its domain *)

(** X4: [forward] needs the batch axis.  On a single image of shape
    (C, H, W) it always raises, also when C = 3: the pooled image is
    reshaped to C rows of one value, and when C, H, W >= 1 the linear layer
    rejects these rows of length 1. *)
Theorem forward_unbatched_image m x (C H W : nat) w :
  MyModel_ok m -> shape x = [C; H; W] ->
  (exists e, MyModel_forward m x w = (inl e, w)) /\
  (1 <= C -> 1 <= H -> 1 <= W ->
   MyModel_forward m x w = (inl (RuntimeError (ShapeMismatch 1 3)), w)).
Proof.
  intros (_ & Hp & Hin) Hs.
  rewrite (forward_3d m x C H W w Hp Hin Hs). split; [eauto|].
  intros HC _ _. destruct (Nat.eqb_spec C 0) as [?|_]; [lia|reflexivity].
Qed.

(** X5: [forward] rejects an empty batch.  On every batch of shape
    (0, C, H, W) with H, W >= 1, also when C = 3, the reshape to
    [(out.size(0), -1)] raises because the -1 cannot be inferred, and the
    linear layer is not reached. *)
Theorem forward_empty_batch m x (C H W : nat) w :
  MyModel_ok m -> shape x = [0; C; H; W] -> 1 <= H -> 1 <= W ->
  MyModel_forward m x w = (inl (RuntimeError AmbiguousReshape), w).
Proof.
  intros (_ & Hp & _) Hs _ _. exact (forward_4d_empty m x C H W w Hp Hs).
Qed.

End MoreProperties.

(** * Concrete runs *)

(** The means of the three channels of the first image of the batch
    0, 1, ..., 23: its planes are 0..3, 4..7 and 8..11. *)
Example pooled_values_first_image :
  List.map QArith_base.Qnum
    (List.map Qreduction.Qred (pooled_values batch_2x3x2x2 3 2 2 0)) = [3; 11; 19]%Z /\
  List.map QArith_base.Qden
    (List.map Qreduction.Qred (pooled_values batch_2x3x2x2 3 2 2 0)) = [2; 2; 2]%positive.
Proof. split; vm_compute; reflexivity. Qed.

Example model3_ok : MyModel_ok model3.
Proof. repeat split. Qed.

Example forward_two_images :
  exists y, MyModel_forward model3 batch_2x3x2x2 world0 = (inr y, world0) /\
            shape y = [2; 3] /\ length (data y) = 6.
Proof. eexists. split; [vm_compute; reflexivity|]. split; reflexivity. Qed.

(** The constructor refuses a size that does not fit 64 bits. *)
Example constructor_refuses_2_63 :
  fst (MyModel__init__ (VInt (2 ^ 63)) world0) = inl TypeError.
Proof. vm_compute. reflexivity. Qed.

Lemma from_config_is_constructor_call_witness :
  MyModel_from_config model_config world0 = MyModel__init__ (VInt 3) world0.
Proof.
  apply (from_config_is_constructor_call (T := QTorch) model_config (VInt 3) world0).
  vm_compute. reflexivity.
Defined.

Lemma forward_is_pool_then_fc_witness :
  MyModel_forward model3 batch_2x3x2x2 world0 =
  (inr (pool_then_fc model3 batch_2x3x2x2), world0).
Proof.
  apply (forward_is_pool_then_fc (T := QTorch) model3 batch_2x3x2x2 2 2 2 world0).
  - repeat split.
  - reflexivity.
  - lia.
  - lia.
  - lia.
Defined.

Lemma build_model_selects_MyModel_witness :
  build_model model_config (snd (register_model "my_model" MyModel world0)) =
    (inr model3,
     snd (MyModel__init__ (VInt 3) (snd (register_model "my_model" MyModel world0)))) /\
  isinstance model3 MyModel = true /\
  MyModel_from_config model_config (snd (register_model "my_model" MyModel world0)) =
    (inr model3,
     snd (MyModel__init__ (VInt 3) (snd (register_model "my_model" MyModel world0)))).
Proof.
  apply (build_model_selects_MyModel (T := QTorch) model_config (VInt 3) world0).
  - reflexivity.
  - vm_compute. reflexivity.
  - vm_compute. reflexivity.
  - vm_compute. reflexivity.
Defined.

(** A configuration named "my_model" whose "num_classes" is -1: the
    constructor of the linear layer rejects the negative size, and
    [build_model] returns no model. *)
Lemma build_model_negative_num_classes :
  config_negative !! "name" = Some (VStr "my_model") /\
  config_negative !! "num_classes" = Some (VInt (-1)) /\
  fst (build_model config_negative (snd (register_model "my_model" MyModel world0))) =
    inl (RuntimeError (NegativeDimension (-1))) /\
  ~ (exists m w',
       build_model config_negative (snd (register_model "my_model" MyModel world0)) =
       (inr m, w')).
Proof.
  split; [vm_compute; reflexivity|]. split; [vm_compute; reflexivity|].
  assert (Hrun : fst (build_model config_negative
                        (snd (register_model "my_model" MyModel world0))) =
                 inl (RuntimeError (NegativeDimension (-1))))
    by (vm_compute; reflexivity).
  split; [exact Hrun|].
  intros (m & w' & Hm). rewrite Hm in Hrun. discriminate Hrun.
Qed.

Lemma from_config_reads_num_classes_only_witness :
  built_architecture (MyModel_from_config config_extra world0) =
  built_architecture (MyModel_from_config model_config
                        (snd (MyModel__init__ (VInt 1000) world0))) /\
  MyModel_from_config config_extra world0 = MyModel_from_config model_config world0.
Proof.
  apply (from_config_reads_num_classes_only (T := QTorch)).
  vm_compute. reflexivity.
Defined.

Lemma forward_deterministic_witness :
  fst (MyModel_forward model3 batch_2x3x2x2 world0) =
  fst (MyModel_forward model3_eval batch_2x3x2x2
         (snd (MyModel__init__ (VInt 3) world0))) /\
  snd (MyModel_forward model3 batch_2x3x2x2 world0) = world0 /\
  (forall y w', Module__call__ model3 batch_2x3x2x2 world0 = (inr y, w') ->
                Module__call__ model3_eval batch_2x3x2x2 w' = (inr y, w')).
Proof.
  apply (forward_deterministic (T := QTorch)); reflexivity.
Defined.

Lemma forward_output_shape_witness :
  exists y, MyModel_forward model3 batch_2x3x2x2 world0 = (inr y, world0) /\
            shape y = [2; 3] /\ tensor_wf y.
Proof.
  apply (forward_output_shape (T := QTorch) 3 world0 model3
           (snd (MyModel__init__ (VInt 3) world0)) batch_2x3x2x2 2 2 2 world0).
  - vm_compute. reflexivity.
  - reflexivity.
  - lia.
  - lia.
  - lia.
Defined.

Lemma forward_needs_three_channels_witness :
  (forall y w', MyModel_forward model3 batch_1x2x1x1 world0 = (inr y, w') ->
     2 = 3 /\ 1 <= 1) /\
  (2 <> 3 ->
   (exists e, MyModel_forward model3 batch_1x2x1x1 world0 = (inl e, world0)) /\
   (1 <= 1 ->
    MyModel_forward model3 batch_1x2x1x1 world0 =
    (inl (RuntimeError (ShapeMismatch 2 3)), world0))).
Proof.
  apply (forward_needs_three_channels (T := QTorch) model3 batch_1x2x1x1 1 2 1 1 world0).
  - repeat split.
  - reflexivity.
Defined.

(** Two inputs on which the channel count does not decide the outcome.
    On an empty batch of 2-channel images [forward] raises in [reshape],
    before the linear layer is reached: the exception is not the shape
    mismatch of [fc].  On a 5-dimensional input whose second axis has
    length 1 the mean over the last two axes leaves 1 x 3 values for each
    item, which [reshape] flattens to the 3 features [fc] expects:
    [forward] returns although the channel axis is not 3. *)
Lemma forward_channel_count_counterexamples :
  (shape batch_0x2x1x1 = [0; 2; 1; 1] /\
   tensor_wf batch_0x2x1x1 /\
   MyModel_forward model3 batch_0x2x1x1 world0 =
     (inl (RuntimeError AmbiguousReshape), world0) /\
   ~ (exists got expected w',
        MyModel_forward model3 batch_0x2x1x1 world0 =
        (inl (RuntimeError (ShapeMismatch got expected)), w'))) /\
  (shape input_2x1x3x2x2 = [2; 1; 3; 2; 2] /\
   tensor_wf input_2x1x3x2x2 /\
   shape input_2x1x3x2x2 !! 1 = Some 1 /\
   exists y, MyModel_forward model3 input_2x1x3x2x2 world0 = (inr y, world0) /\
             shape y = [2; 3]).
Proof.
  split.
  - split; [reflexivity|]. split; [reflexivity|].
    assert (Hrun : MyModel_forward model3 batch_0x2x1x1 world0 =
                   (inl (RuntimeError AmbiguousReshape), world0))
      by (vm_compute; reflexivity).
    split; [exact Hrun|].
    intros (got & expected & w' & Hm). rewrite Hm in Hrun. discriminate Hrun.
  - split; [reflexivity|]. split; [reflexivity|]. split; [reflexivity|].
    eexists. split; [vm_compute; reflexivity|reflexivity].
Qed.

Lemma constructor_invariants_witness :
  shape (weight (fc model3)) = [3; 3] /\ tensor_wf (weight (fc model3)) /\
  shape (bias (fc model3)) = [3] /\ tensor_wf (bias (fc model3)).
Proof.
  destruct (constructor_invariants (T := QTorch) (VInt 3) world0 model3
              (snd (MyModel__init__ (VInt 3) world0)))
    as (n & Hv & _ & _ & _ & _ & _ & _ & Hws & Hwwf & Hbs & Hbwf & _).
  - vm_compute. reflexivity.
  - injection Hv as <-. repeat split; assumption.
Defined.

Lemma forward_unbatched_image_witness :
  MyModel_forward model3 image_3x2x2 world0 =
  (inl (RuntimeError (ShapeMismatch 1 3)), world0).
Proof.
  apply (forward_unbatched_image (T := QTorch) model3 image_3x2x2 3 2 2 world0).
  - repeat split.
  - reflexivity.
  - lia.
  - lia.
  - lia.
Defined.

Lemma forward_empty_batch_witness :
  MyModel_forward model3 batch_0x3x2x2 world0 =
  (inl (RuntimeError AmbiguousReshape), world0).
Proof.
  apply (forward_empty_batch (T := QTorch) model3 batch_0x3x2x2 3 2 2 world0).
  - repeat split.
  - reflexivity.
  - lia.
  - lia.
Defined.
